(** * S3Cache: a cachelib backend over an S3 bucket

    Shallow embedding of [s3cache/s3cache.py].  The class [S3Cache] maps the
    cache operations [get], [set], [add], [delete] and [clear] onto calls of a
    boto3 S3 client.  The client and the pickle serializer are external
    collaborators: the client is modelled as an in-memory bucket store that can
    be told to fail, the serializer is an interface ([Pickle]). *)

From Stdlib Require Import ZArith List.
From Stdlib.Strings Require Import Byte.
From stdpp Require Import base gmap strings list.

Open Scope string_scope.
Set Warnings "-register-all".

(** ** Python values and exceptions *)

(** The values a caller can hand to the cache.  [PyLambda] stands for the
    objects the serializer refuses (functions defined inline, locks, ...). *)
Inductive PyValue : Type :=
| PyNone
| PyBool (b : bool)
| PyInt (z : Z)
| PyStr (s : string)
| PyList (items : list PyValue)
| PyDict (items : list (PyValue * PyValue))
| PyLambda.

Definition bytes : Type := list byte.

(** Keyword arguments forwarded verbatim to the client. *)
Definition ExtraArgs : Type := list (string * string).

(** Errors of the storage client: the object is missing, the caller has no
    permission, the endpoint cannot be reached. *)
Inductive S3Error : Type :=
| NoSuchKey
| AccessDenied
| EndpointConnectionError.

(** The exceptions that occur; all of them derive from [Exception]. *)
Inductive Exn : Type :=
| ClientError (e : S3Error)
| PicklingError
| UnpicklingError.

Inductive Result (A : Type) : Type :=
| Ok (a : A)
| Raise (e : Exn).
Arguments Ok {A} a.
Arguments Raise {A} e.

(** ** The world outside the cache object *)

(** A call received by the S3 client, with the arguments it was given. *)
Inductive Request : Type :=
| HeadObject (Bucket Key : string) (extra : ExtraArgs)
| DownloadFileobj (Bucket Key : string) (extra : ExtraArgs)
| UploadFileobj (Fileobj : bytes) (Bucket Key : string) (extra : ExtraArgs)
| DeleteObjects (Bucket : string) (Keys : list string).

(** The record written by [logging.warn] and [logging.exception]. *)
Inductive LogRecord : Type :=
| LogWarn (msg : string)
| LogException (e : Exn).

(** [objects] is the content of the store, by bucket and key.  [faults] is the
    outcome of the coming client calls, one entry per call: [Some e] makes the
    call raise [e] before it has any effect, [None] lets it through; calls
    beyond the schedule go through.  [requests] lists the calls the client
    received, oldest first.  [prefix_calls] counts the invocations of a
    callable key prefix, which may answer differently each time. *)
Record World : Type := mkWorld {
  objects : gmap (string * string) bytes;
  faults : list (option S3Error);
  requests : list Request;
  prefix_calls : nat;
  logged : list LogRecord
}.

Definition with_objects (o : gmap (string * string) bytes) (w : World) : World :=
  mkWorld o (faults w) (requests w) (prefix_calls w) (logged w).

(** The fault scheduled for the coming client call, if any. *)
Definition next_fault (w : World) : option S3Error :=
  match faults w with
  | Some e :: _ => Some e
  | _ => None
  end.

(** The client has received [r]: the request is on record and its entry of
    the schedule is used up. *)
Definition served (r : Request) (w : World) : World :=
  mkWorld (objects w) (tail (faults w)) (requests w ++ [r]) (prefix_calls w) (logged w).

Definition record_log (r : LogRecord) (w : World) : World :=
  mkWorld (objects w) (faults w) (requests w) (prefix_calls w) (logged w ++ [r]).

Definition tick_prefix (w : World) : World :=
  mkWorld (objects w) (faults w) (requests w) (S (prefix_calls w)) (logged w).

(** ** Computations: state passing with exceptions *)

Definition M (A : Type) : Type := World -> Result A * World.

Definition ret {A} (a : A) : M A := fun w => (Ok a, w).

Definition bind {A B} (m : M A) (k : A -> M B) : M B :=
  fun w =>
    match m w with
    | (Ok a, w') => k a w'
    | (Raise e, w') => (Raise e, w')
    end.

(** [try: body / except Exception as e: handler / else: orelse].  The [else]
    suite runs after a body that did not raise and is not covered by the
    handler. *)
Definition try_except_else {A B} (body : M A) (handler : Exn -> M B)
    (orelse : A -> M B) : M B :=
  fun w =>
    match body w with
    | (Ok a, w') => orelse a w'
    | (Raise e, w') => handler e w'
    end.

Definition lift {A} (r : Result A) : M A := fun w => (r, w).

Notation "'let*' x ':=' m 'in' k" := (bind m (fun x => k))
  (at level 10, x name, m at level 100, k at level 200).

(** ** The S3 client *)

Module S3Client.

(** Every call is recorded and takes its outcome from the schedule. *)
Definition call {A} (r : Request) (effect : M A) : M A :=
  fun w =>
    match next_fault w with
    | Some e => (Raise (ClientError e), served r w)
    | None => effect (served r w)
    end.

(** [head_object] raises when the object does not exist. *)
Definition head_object (Bucket Key : string) (extra : ExtraArgs) : M unit :=
  call (HeadObject Bucket Key extra)
    (fun w =>
       match objects w !! (Bucket, Key) with
       | Some _ => (Ok tt, w)
       | None => (Raise (ClientError NoSuchKey), w)
       end).

(** [download_fileobj] writes the object into the file object it is given;
    the bytes written are the result here. *)
Definition download_fileobj (Bucket Key : string) (extra : ExtraArgs) : M bytes :=
  call (DownloadFileobj Bucket Key extra)
    (fun w =>
       match objects w !! (Bucket, Key) with
       | Some body => (Ok body, w)
       | None => (Raise (ClientError NoSuchKey), w)
       end).

Definition upload_fileobj (Fileobj : bytes) (Bucket Key : string)
    (extra : ExtraArgs) : M unit :=
  call (UploadFileobj Fileobj Bucket Key extra)
    (fun w => (Ok tt, with_objects (<[(Bucket, Key) := Fileobj]> (objects w)) w)).

Definition delete_objects (Bucket : string) (Keys : list string) : M unit :=
  call (DeleteObjects Bucket Keys)
    (fun w =>
       (Ok tt,
        with_objects (foldr (fun k o => delete (Bucket, k) o) (objects w) Keys) w)).

End S3Client.

(** ** Logging *)

Definition logging_warn (msg : string) : M unit :=
  fun w => (Ok tt, record_log (LogWarn msg) w).

Definition logging_exception (e : Exn) : M unit :=
  fun w => (Ok tt, record_log (LogException e) w).

(** ** The serializer *)

(** [pickle.dump] and [pickle.load] over an in-memory file: both can raise. *)
Class Pickle : Type := {
  pickle_dumps : PyValue -> Result bytes;
  pickle_loads : bytes -> Result PyValue
}.

(** ** The cache *)

(** The [key_prefix] argument of the constructor: a string, or an object with
    [__call__].  The callable takes no argument; what it answers when it has
    been invoked [n] times before is [f n]. *)
Inductive KeyPrefix : Type :=
| Literal (s : string)
| Callable (f : nat -> string).

Record S3Cache : Type := mkS3Cache {
  bucket : string;
  _key_prefix : KeyPrefix;
  default_timeout : Z;
  get_extra_args : ExtraArgs;
  put_extra_args : ExtraArgs;
  head_extra_args : ExtraArgs
}.

Module Cache.
Section Methods.

Context `{Pickle}.
Variable self : S3Cache.

Definition key_prefix : M string :=
  match _key_prefix self with
  | Literal s => ret s
  | Callable f => fun w => (Ok (f (prefix_calls w)), tick_prefix w)
  end.

Definition _full_s3_key (key : string) : M string :=
  let* prefix := key_prefix in
  ret (prefix +:+ key).

Definition _key_exists (key : string) : M bool :=
  try_except_else
    (let* full := _full_s3_key key in
     S3Client.head_object (bucket self) full (head_extra_args self))
    (fun _ => ret false)
    (fun _ => ret true).

Definition get (key : string) : M PyValue :=
  let* found := _key_exists key in
  if negb found then ret PyNone
  else
    try_except_else
      (let* full := _full_s3_key key in
       S3Client.download_fileobj (bucket self) full (get_extra_args self))
      (fun e =>
         let* _ := logging_warn ("Error while trying to get key " +:+ key) in
         let* _ := logging_exception e in
         ret PyNone)
      (fun value_file => lift (pickle_loads value_file)).

Definition delete (key : string) : M bool :=
  let* found := _key_exists key in
  if negb found then ret false
  else
    try_except_else
      (let* full := _full_s3_key key in
       S3Client.delete_objects (bucket self) [full])
      (fun e =>
         let* _ := logging_warn ("Error while trying to delete key " +:+ key) in
         let* _ := logging_exception e in
         ret false)
      (fun _ => ret true).

Definition set (key : string) (value : PyValue) (timeout : option Z) : M bool :=
  let* value_file := lift (pickle_dumps value) in
  try_except_else
    (let* full := _full_s3_key key in
     S3Client.upload_fileobj value_file (bucket self) full (put_extra_args self))
    (fun e =>
       let* _ := logging_warn ("Error while trying to set key " +:+ key) in
       let* _ := logging_exception e in
       ret false)
    (fun _ => ret true).

Definition add (key : string) (value : PyValue) (timeout : option Z) : M bool :=
  let* found := _key_exists key in
  if found then ret false
  else set key value timeout.

Definition clear : M bool := ret false.

End Methods.
End Cache.

(** ** Operations as data *)

(** The four operations that take a key, and the call of one of them.  The
    boolean results are wrapped as Python booleans. *)
Inductive KeyedOp : Type :=
| OpGet
| OpSet (value : PyValue) (timeout : option Z)
| OpAdd (value : PyValue) (timeout : option Z)
| OpDelete.

Definition perform `{Pickle} (self : S3Cache) (op : KeyedOp) (key : string) : M PyValue :=
  match op with
  | OpGet => Cache.get self key
  | OpSet value timeout => let* r := Cache.set self key value timeout in ret (PyBool r)
  | OpAdd value timeout => let* r := Cache.add self key value timeout in ret (PyBool r)
  | OpDelete => let* r := Cache.delete self key in ret (PyBool r)
  end.

(** The operations that write. *)
Definition writes (op : KeyedOp) : bool :=
  match op with
  | OpSet _ _ | OpAdd _ _ => true
  | OpGet | OpDelete => false
  end.

(** A caller performing operations one after the other, whatever they return
    or raise. *)
Fixpoint run_ops `{Pickle} (self : S3Cache) (ops : list (KeyedOp * string))
    (w : World) : World :=
  match ops with
  | [] => w
  | (op, key) :: rest => run_ops self rest (perform self op key w).2
  end.

(** ** Vocabulary of the statements *)

(** What the evaluation of [key_prefix] answers when the callable has been
    invoked [n] times before. *)
Definition prefix_at (self : S3Cache) (n : nat) : string :=
  match _key_prefix self with
  | Literal s => s
  | Callable f => f n
  end.

(** The world after one evaluation of [key_prefix]. *)
Definition after_prefix (self : S3Cache) (w : World) : World :=
  match _key_prefix self with
  | Literal _ => w
  | Callable _ => tick_prefix w
  end.

(** The prefix does not depend on when it is asked for. *)
Definition stable_prefix (self : S3Cache) : Prop :=
  forall n m, prefix_at self n = prefix_at self m.

(** [p] is the configured string, or the answer of an invocation of the
    callable made between [w] and [w']. *)
Definition prefix_between (self : S3Cache) (w w' : World) (p : string) : Prop :=
  match _key_prefix self with
  | Literal s => p = s
  | Callable f => exists n, prefix_calls w <= n < prefix_calls w' /\ p = f n
  end.

(** The bucket and the object keys a request names. *)
Definition request_bucket (r : Request) : string :=
  match r with
  | HeadObject b _ _ | DownloadFileobj b _ _ | UploadFileobj _ b _ _
  | DeleteObjects b _ => b
  end.

Definition request_keys (r : Request) : list string :=
  match r with
  | HeadObject _ k _ | DownloadFileobj _ k _ | UploadFileobj _ _ k _ => [k]
  | DeleteObjects _ ks => ks
  end.

(** [r] names the bucket of the cache and the single key [p +:+ key], for a
    prefix [p] evaluated between [w] and [w']. *)
Definition addressed (self : S3Cache) (key : string) (w w' : World) (r : Request) : Prop :=
  request_bucket r = bucket self
  /\ exists p, prefix_between self w w' p /\ request_keys r = [p +:+ key].

(** Between [w] and [w'] the client received exactly [sent], each request
    addressed as above. *)
Definition sends (self : S3Cache) (key : string) (w w' : World)
    (sent : list Request) : Prop :=
  requests w' = (requests w ++ sent)%list
  /\ prefix_calls w <= prefix_calls w'
  /\ Forall (addressed self key w w') sent.

(** The storage key of [key] under the prefix in force at [w], and the object
    stored there. *)
Definition full_key (self : S3Cache) (key : string) (w : World) : string :=
  prefix_at self (prefix_calls w) +:+ key.

Definition stored (self : S3Cache) (key : string) (w : World) : option bytes :=
  objects w !! (bucket self, full_key self key w).

(** No fault is scheduled: every coming client call goes through. *)
Definition reliable (w : World) : Prop := faults w = [].

(** The existence probe in closed form: the request it sends, the world it
    leaves and its answer. *)
Definition probe_request (self : S3Cache) (key : string) (w : World) : Request :=
  HeadObject (bucket self) (full_key self key w) (head_extra_args self).

Definition probed (self : S3Cache) (key : string) (w : World) : World :=
  served (probe_request self key w) (after_prefix self w).

Definition probe_answer (self : S3Cache) (key : string) (w : World) : bool :=
  match next_fault w, stored self key w with
  | None, Some _ => true
  | _, _ => false
  end.

(** ** A serializer to run the model on *)

(** A stand-in for pickle that knows [None], the booleans and strings, refuses
    every other value and rejects every payload it did not write. *)
Definition stub_dumps (v : PyValue) : Result bytes :=
  match v with
  | PyNone => Ok [x4e; x2e]
  | PyBool true => Ok [x88; x2e]
  | PyBool false => Ok [x89; x2e]
  | PyStr s => Ok (x56 :: String.list_byte_of_string s)
  | _ => Raise PicklingError
  end.

Definition stub_loads (b : bytes) : Result PyValue :=
  match b with
  | [x4e; x2e] => Ok PyNone
  | [x88; x2e] => Ok (PyBool true)
  | [x89; x2e] => Ok (PyBool false)
  | x56 :: rest => Ok (PyStr (String.string_of_list_byte rest))
  | _ => Raise UnpicklingError
  end.

Definition StubPickle : Pickle :=
  {| pickle_dumps := stub_dumps; pickle_loads := stub_loads |}.

(** The cache of the scenario: bucket ["bucket"], prefix ["cache/"]. *)
Definition scenario_cache : S3Cache :=
  mkS3Cache "bucket" (Literal "cache/") 300 [] [] [].

(** A cache whose prefix changes with every evaluation. *)
Definition rotating_cache : S3Cache :=
  mkS3Cache "bucket" (Callable (fun n => if Nat.even n then "a/" else "b/")) 300 [] [] [].

Definition empty_world : World := mkWorld ∅ [] [] 0 [].

(** A cache whose prefix answers ["a/"], except at its third evaluation. *)
Definition drifting_cache : S3Cache :=
  mkS3Cache "bucket" (Callable (fun n => if Nat.eqb n 2 then "b/" else "a/")) 300 [] [] [].

(** A cache whose prefix grows after its first evaluation. *)
Definition growing_cache : S3Cache :=
  mkS3Cache "bucket" (Callable (fun n => if Nat.eqb n 0 then "a" else "ab")) 300 [] [] [].

(** ** The guarded client calls in closed form *)

(** The requests of [get], [set] and [delete] for [key], with the storage key
    computed at [w]. *)
Definition download_request (self : S3Cache) (key : string) (w : World) : Request :=
  DownloadFileobj (bucket self) (full_key self key w) (get_extra_args self).

Definition upload_request (self : S3Cache) (key : string) (body : bytes)
    (w : World) : Request :=
  UploadFileobj body (bucket self) (full_key self key w) (put_extra_args self).

Definition delete_request (self : S3Cache) (key : string) (w : World) : Request :=
  DeleteObjects (bucket self) [full_key self key w].

(** What an [except] suite of the cache leaves: the warning, then the
    exception. *)
Definition failure_logged (msg : string) (e : Exn) (w : World) : World :=
  record_log (LogException e) (record_log (LogWarn msg) w).



(** * Facts about the model *)

Section Facts.

Context `{Pickle}.
Variable self : S3Cache.

Lemma key_prefix_run (w : World) :
  Cache.key_prefix self w = (Ok (prefix_at self (prefix_calls w)), after_prefix self w).
Proof.
  unfold Cache.key_prefix, prefix_at, after_prefix.
  destruct (_key_prefix self); reflexivity.
Qed.

Lemma full_s3_key_run (key : string) (w : World) :
  Cache._full_s3_key self key w = (Ok (full_key self key w), after_prefix self w).
Proof.
  unfold Cache._full_s3_key, bind. rewrite key_prefix_run. reflexivity.
Qed.

Lemma after_prefix_objects (w : World) : objects (after_prefix self w) = objects w.
Proof. unfold after_prefix. destruct (_key_prefix self); reflexivity. Qed.

Lemma after_prefix_faults (w : World) : faults (after_prefix self w) = faults w.
Proof. unfold after_prefix. destruct (_key_prefix self); reflexivity. Qed.

Lemma after_prefix_requests (w : World) : requests (after_prefix self w) = requests w.
Proof. unfold after_prefix. destruct (_key_prefix self); reflexivity. Qed.

Lemma after_prefix_next_fault (w : World) :
  next_fault (after_prefix self w) = next_fault w.
Proof. unfold next_fault. rewrite after_prefix_faults. reflexivity. Qed.

Lemma after_prefix_calls (w : World) :
  prefix_calls w <= prefix_calls (after_prefix self w).
Proof. unfold after_prefix. destruct (_key_prefix self); simpl; lia. Qed.

(** Under a stable prefix the storage key of [key] is the same in all worlds. *)
Lemma full_key_stable (key : string) (w w' : World) :
  stable_prefix self -> full_key self key w = full_key self key w'.
Proof. intros Hs. unfold full_key. f_equal. apply Hs. Qed.

Lemma stored_stable (key : string) (w w' : World) :
  stable_prefix self -> objects w = objects w' ->
  stored self key w = stored self key w'.
Proof.
  intros Hs Ho. unfold stored. rewrite Ho, (full_key_stable key w w' Hs). reflexivity.
Qed.

Lemma reliable_next_fault (w : World) : reliable w -> next_fault w = None.
Proof. unfold reliable, next_fault. intros ->. reflexivity. Qed.

Lemma reliable_served (r : Request) (w : World) : reliable w -> reliable (served r w).
Proof. unfold reliable. simpl. intros ->. reflexivity. Qed.

Lemma reliable_after_prefix (w : World) : reliable w -> reliable (after_prefix self w).
Proof. unfold reliable. rewrite after_prefix_faults. trivial. Qed.

(** The probe never raises; its answer and the world it leaves are the closed
    forms. *)
Lemma key_exists_run (key : string) (w : World) :
  Cache._key_exists self key w = (Ok (probe_answer self key w), probed self key w).
Proof.
  unfold Cache._key_exists, try_except_else, bind.
  rewrite full_s3_key_run.
  unfold S3Client.head_object, S3Client.call, probe_answer, probed, probe_request, stored.
  rewrite after_prefix_next_fault.
  destruct (next_fault w); [reflexivity|].
  cbn [objects served]. rewrite after_prefix_objects.
  destruct (objects w !! (bucket self, full_key self key w)); reflexivity.
Qed.

Lemma probed_objects key w : objects (probed self key w) = objects w.
Proof. unfold probed. simpl. apply after_prefix_objects. Qed.

Lemma probed_reliable key w : reliable w -> reliable (probed self key w).
Proof. intros Hr. unfold probed. apply reliable_served, reliable_after_prefix, Hr. Qed.

End Facts.

Section Runs.

Context `{Pickle}.
Variable self : S3Cache.

(** [get] on a key the probe does not find: a miss, nothing else happens. *)
Lemma get_unprobed key w :
  probe_answer self key w = false ->
  Cache.get self key w = (Ok PyNone, probed self key w).
Proof.
  intros Hp. unfold Cache.get, bind. rewrite key_exists_run, Hp. reflexivity.
Qed.

Lemma delete_unprobed key w :
  probe_answer self key w = false ->
  Cache.delete self key w = (Ok false, probed self key w).
Proof.
  intros Hp. unfold Cache.delete, bind. rewrite key_exists_run, Hp. reflexivity.
Qed.

Lemma add_unprobed key value timeout w :
  probe_answer self key w = false ->
  Cache.add self key value timeout w
  = Cache.set self key value timeout (probed self key w).
Proof.
  intros Hp. unfold Cache.add, bind. rewrite key_exists_run, Hp. reflexivity.
Qed.

Lemma add_probed key value timeout w :
  probe_answer self key w = true ->
  Cache.add self key value timeout w = (Ok false, probed self key w).
Proof.
  intros Hp. unfold Cache.add, bind. rewrite key_exists_run, Hp. reflexivity.
Qed.

(** [get] on a key the probe finds: the download, then the decoding. *)
Lemma get_probed key w :
  probe_answer self key w = true ->
  Cache.get self key w
  = try_except_else
      (S3Client.download_fileobj (bucket self)
         (full_key self key (probed self key w)) (get_extra_args self))
      (fun e =>
         let* _ := logging_warn ("Error while trying to get key " +:+ key) in
         let* _ := logging_exception e in
         ret PyNone)
      (fun value_file => lift (pickle_loads value_file))
      (after_prefix self (probed self key w)).
Proof.
  intros Hp. unfold Cache.get at 1, bind at 1. rewrite key_exists_run, Hp.
  cbn [negb]. unfold try_except_else, bind at 1. rewrite full_s3_key_run.
  reflexivity.
Qed.

Lemma probe_answer_reliable key w :
  reliable w ->
  probe_answer self key w = match stored self key w with Some _ => true | None => false end.
Proof.
  intros Hr. unfold probe_answer. rewrite (reliable_next_fault w Hr). reflexivity.
Qed.

(** With a reliable client and a stable prefix, [get] decodes what is stored. *)
Lemma get_stored key w body :
  stable_prefix self -> reliable w -> stored self key w = Some body ->
  (Cache.get self key w).1 = pickle_loads body.
Proof.
  intros Hs Hr Hb.
  rewrite get_probed by (rewrite probe_answer_reliable, Hb; trivial).
  unfold try_except_else, S3Client.download_fileobj, S3Client.call.
  rewrite (after_prefix_next_fault self).
  rewrite (reliable_next_fault _ (probed_reliable self key w Hr)).
  cbn [objects served]. rewrite !(after_prefix_objects self).
  unfold stored in Hb.
  rewrite <- (full_key_stable self key w (probed self key w) Hs).
  rewrite (probed_objects self), Hb.
  reflexivity.
Qed.

Lemma get_not_stored key w :
  stored self key w = None -> Cache.get self key w = (Ok PyNone, probed self key w).
Proof.
  intros Hb. apply get_unprobed. unfold probe_answer. rewrite Hb.
  destruct (next_fault w); reflexivity.
Qed.

Lemma delete_not_stored key w :
  stored self key w = None -> Cache.delete self key w = (Ok false, probed self key w).
Proof.
  intros Hb. apply delete_unprobed. unfold probe_answer. rewrite Hb.
  destruct (next_fault w); reflexivity.
Qed.

(** What a successful [set] leaves in the store. *)
Lemma set_true_inv key value timeout w w1 :
  Cache.set self key value timeout w = (Ok true, w1) ->
  exists body,
    pickle_dumps value = Ok body
    /\ objects w1 = <[(bucket self, full_key self key w) := body]> (objects w)
    /\ faults w1 = tail (faults w).
Proof.
  unfold Cache.set, bind at 1, lift.
  destruct (pickle_dumps value) as [body|e]; [|discriminate].
  unfold try_except_else, bind at 1. rewrite full_s3_key_run.
  unfold S3Client.upload_fileobj, S3Client.call.
  rewrite after_prefix_next_fault.
  destruct (next_fault w).
  - unfold bind, logging_warn, logging_exception, ret. discriminate.
  - unfold ret. intros [= <-]. exists body.
    cbn. rewrite after_prefix_objects, after_prefix_faults. auto.
Qed.

End Runs.

Section MoreRuns.

Context `{Pickle}.
Variable self : S3Cache.

(** [set] with a value that encodes and an upload that goes through. *)
Lemma set_uploaded key value timeout w body :
  pickle_dumps value = Ok body -> next_fault w = None ->
  Cache.set self key value timeout w
  = (Ok true,
     with_objects (<[(bucket self, full_key self key w) := body]> (objects w))
       (served (UploadFileobj body (bucket self) (full_key self key w)
                  (put_extra_args self))
          (after_prefix self w))).
Proof.
  intros Hd Hf. unfold Cache.set, bind at 1, lift. rewrite Hd.
  unfold try_except_else, bind at 1. rewrite full_s3_key_run.
  unfold S3Client.upload_fileobj, S3Client.call.
  rewrite after_prefix_next_fault, Hf. unfold ret.
  cbn [objects served]. rewrite after_prefix_objects. reflexivity.
Qed.

(** [delete] on a key the probe finds, with a deletion that goes through. *)
Lemma delete_deleted key w :
  probe_answer self key w = true -> next_fault (probed self key w) = None ->
  exists w',
    Cache.delete self key w = (Ok true, w')
    /\ objects w'
       = delete (bucket self, full_key self key (probed self key w)) (objects w)
    /\ faults w' = tail (faults (probed self key w)).
Proof.
  intros Hp Hf. unfold Cache.delete, bind at 1. rewrite key_exists_run, Hp.
  cbn [negb]. unfold try_except_else, bind at 1. rewrite full_s3_key_run.
  unfold S3Client.delete_objects, S3Client.call.
  rewrite after_prefix_next_fault, Hf. unfold ret.
  eexists. split; [reflexivity|].
  split; cbn [objects faults with_objects served foldr].
  - rewrite after_prefix_objects, probed_objects. reflexivity.
  - rewrite after_prefix_faults. reflexivity.
Qed.

End MoreRuns.

(** * The claims *)

(** C1, amended: with a key prefix that answers the same at every evaluation,
    after a [set(k, v)] that returned [True], with a client that raises no
    error afterwards and a value that survives the round trip through the
    serializer, the following [get(k)] returns [v]. *)
Theorem set_then_get `{Pickle} (self : S3Cache) (key : string) (value : PyValue)
    (timeout : option Z) (w w1 : World) :
  stable_prefix self ->
  Cache.set self key value timeout w = (Ok true, w1) ->
  reliable w1 ->
  (forall body, pickle_dumps value = Ok body -> pickle_loads body = Ok value) ->
  (Cache.get self key w1).1 = Ok value.
Proof.
  intros Hs Hset Hr Hrt.
  destruct (set_true_inv self key value timeout w w1 Hset) as (body & Hd & Ho & _).
  rewrite (get_stored self key w1 body Hs Hr).
  - apply Hrt, Hd.
  - unfold stored. rewrite Ho, (full_key_stable self key w1 w Hs).
    apply lookup_insert_eq.
Qed.

Lemma set_then_get_witness :
  (@Cache.get StubPickle scenario_cache "abc"
     (@Cache.set StubPickle scenario_cache "abc" (PyStr "v") None empty_world).2).1
  = Ok (PyStr "v").
Proof.
  apply (@set_then_get StubPickle scenario_cache "abc" (PyStr "v") None empty_world).
  - intros n m. reflexivity.
  - reflexivity.
  - reflexivity.
  - intros body [= <-]. reflexivity.
Defined.

(** C1 as stated fails.  With a prefix that changes between evaluations, [set]
    returns [True] and the following [get] probes another object and returns
    [None]; with a fixed prefix, the same happens when the head call of the
    [get] raises. *)
Lemma set_then_get_counterexample :
  (let r := @Cache.set StubPickle rotating_cache "abc" (PyStr "v") None empty_world in
   r.1 = Ok true
   /\ (@Cache.get StubPickle rotating_cache "abc" r.2).1 = Ok PyNone
   /\ (@Cache.get StubPickle rotating_cache "abc" r.2).1 <> Ok (PyStr "v"))
  /\ (let r := @Cache.set StubPickle scenario_cache "abc" (PyStr "v") None
                 (mkWorld ∅ [None; Some EndpointConnectionError] [] 0 []) in
      r.1 = Ok true
      /\ (@Cache.get StubPickle scenario_cache "abc" r.2).1 = Ok PyNone
      /\ (@Cache.get StubPickle scenario_cache "abc" r.2).1 <> Ok (PyStr "v")).
Proof. repeat split; try reflexivity; vm_compute; discriminate. Qed.

(** C5: whenever the [head_object] call of the probe raises, whatever the
    error, the probe answers [False]; [get] then returns [None], [delete]
    returns [False] and [add] goes on to [set], as for an absent key. *)
Theorem probe_error_means_absent `{Pickle} (self : S3Cache) (key : string)
    (w w0 w1 : World) (full : string) (e : Exn) :
  Cache._full_s3_key self key w = (Ok full, w0) ->
  S3Client.head_object (bucket self) full (head_extra_args self) w0 = (Raise e, w1) ->
  Cache._key_exists self key w = (Ok false, w1)
  /\ Cache.get self key w = (Ok PyNone, w1)
  /\ Cache.delete self key w = (Ok false, w1)
  /\ (forall value timeout,
        Cache.add self key value timeout w = Cache.set self key value timeout w1).
Proof.
  intros Hk Hh.
  assert (Hprobe : Cache._key_exists self key w = (Ok false, w1)).
  { unfold Cache._key_exists, try_except_else, bind. rewrite Hk, Hh. reflexivity. }
  split; [exact Hprobe|].
  unfold Cache.get, Cache.delete, Cache.add, bind. rewrite Hprobe.
  repeat split.
Qed.

(** An object that exists, probed while the client answers [AccessDenied],
    reads as absent. *)
Lemma probe_error_means_absent_witness :
  let w := mkWorld {[ ("bucket", "cache/abc") := [x4e; x2e] ]} [Some AccessDenied] [] 0 [] in
  let w1 := served (HeadObject "bucket" "cache/abc" []) (mkWorld (objects w) [Some AccessDenied] [] 0 []) in
  Cache._key_exists scenario_cache "abc" w = (Ok false, w1)
  /\ @Cache.get StubPickle scenario_cache "abc" w = (Ok PyNone, w1)
  /\ Cache.delete scenario_cache "abc" w = (Ok false, w1)
  /\ (forall value timeout,
        @Cache.add StubPickle scenario_cache "abc" value timeout w
        = @Cache.set StubPickle scenario_cache "abc" value timeout w1).
Proof.
  intros w w1.
  apply (@probe_error_means_absent StubPickle scenario_cache "abc" w w w1
           "cache/abc" (ClientError AccessDenied)); reflexivity.
Defined.

(** C4: [set] raises the error of the serializer when the value does not
    encode, before any request is sent; when the value encodes and the upload
    raises, [set] returns [False]. *)
Theorem set_encode_raises_upload_fails `{Pickle} (self : S3Cache) (key : string)
    (value : PyValue) (timeout : option Z) (w : World) :
  (forall e, pickle_dumps value = Raise e ->
     Cache.set self key value timeout w = (Raise e, w))
  /\ (forall body full w0 e w1,
        pickle_dumps value = Ok body ->
        Cache._full_s3_key self key w = (Ok full, w0) ->
        S3Client.upload_fileobj body (bucket self) full (put_extra_args self) w0
        = (Raise e, w1) ->
        exists w2,
          Cache.set self key value timeout w = (Ok false, w2)
          /\ objects w2 = objects w1).
Proof.
  split.
  - intros e He. unfold Cache.set, bind, lift. rewrite He. reflexivity.
  - intros body full w0 e w1 Hd Hk Hu.
    unfold Cache.set, bind at 1, lift. rewrite Hd.
    unfold try_except_else, bind at 1. rewrite Hk, Hu.
    eexists. split; reflexivity.
Qed.

Lemma set_encode_raises_upload_fails_witness :
  @Cache.set StubPickle scenario_cache "abc" PyLambda None empty_world
  = (Raise PicklingError, empty_world)
  /\ exists w2,
       @Cache.set StubPickle scenario_cache "abc" (PyStr "v") None
         (mkWorld ∅ [Some EndpointConnectionError] [] 0 [])
       = (Ok false, w2)
       /\ objects w2 = ∅.
Proof.
  split.
  - apply (@set_encode_raises_upload_fails StubPickle scenario_cache "abc" PyLambda
             None empty_world).
    reflexivity.
  - pose (w := mkWorld ∅ [Some EndpointConnectionError] [] 0 []).
    exact (proj2
             (@set_encode_raises_upload_fails StubPickle scenario_cache "abc"
                (PyStr "v") None w)
             [x56; x76] "cache/abc" w (ClientError EndpointConnectionError)
             (served (UploadFileobj [x56; x76] "bucket" "cache/abc" []) w)
             eq_refl eq_refl eq_refl).
Defined.

(** C8: [clear] returns [False] in every world and leaves the world as it is:
    no request is sent and no object changes. *)
Theorem clear_always_fails (w : World) :
  Cache.clear w = (Ok false, w)
  /\ requests (Cache.clear w).2 = requests w
  /\ objects (Cache.clear w).2 = objects w.
Proof. repeat split. Qed.

(** C9: the [timeout] argument of [set] and of [add] has no effect: with any
    two timeouts the result and the world left are the same. *)
Theorem timeout_has_no_effect `{Pickle} (self : S3Cache) (key : string)
    (value : PyValue) (t1 t2 : option Z) (w : World) :
  Cache.set self key value t1 w = Cache.set self key value t2 w
  /\ Cache.add self key value t1 w = Cache.add self key value t2 w.
Proof. split; reflexivity. Qed.

Section Sequences.

Context `{Pickle}.
Variable self : S3Cache.

Lemma append_inj_r (p a b : string) : p +:+ a = p +:+ b -> a = b.
Proof.
  induction p as [|c p IH]; simpl; intros Heq; [exact Heq|].
  injection Heq as Heq. apply IH, Heq.
Qed.

(** After a successful [set], the object of the key is the encoded value. *)
Lemma set_true_stored key value timeout w w1 :
  stable_prefix self ->
  Cache.set self key value timeout w = (Ok true, w1) ->
  exists body, pickle_dumps value = Ok body /\ stored self key w1 = Some body.
Proof.
  intros Hs Hset.
  destruct (set_true_inv self key value timeout w w1 Hset) as (body & Hd & Ho & _).
  exists body. split; [exact Hd|].
  unfold stored. rewrite Ho, (full_key_stable self key w1 w Hs).
  apply lookup_insert_eq.
Qed.


(** A successful [add] is a successful [set] after a probe that found nothing. *)
Lemma add_true_inv key value timeout w w1 :
  Cache.add self key value timeout w = (Ok true, w1) ->
  probe_answer self key w = false
  /\ Cache.set self key value timeout (probed self key w) = (Ok true, w1).
Proof.
  unfold Cache.add, bind. rewrite key_exists_run.
  destruct (probe_answer self key w); [discriminate|]. auto.
Qed.

Lemma probe_answer_stored key w body :
  reliable w -> stored self key w = Some body -> probe_answer self key w = true.
Proof. intros Hr Hb. rewrite probe_answer_reliable, Hb; trivial. Qed.

End Sequences.

(** C2, amended: [add] writes only after a probe that reports the key absent.
    When the probe reports the key present, [add] returns [False] and the
    store is as before; when it reports it absent, [add] is [set].  After an
    [add(k, v1)] that returned [True], with a key prefix that answers the same
    at every evaluation, a client that raises no error afterwards and a [v1]
    that survives the serializer, [add(k, v2)] returns [False], changes no
    object, and [get(k)] still returns [v1]. *)
Theorem add_keeps_existing `{Pickle} (self : S3Cache) (key : string) :
  (forall value timeout w w',
     Cache._key_exists self key w = (Ok true, w') ->
     Cache.add self key value timeout w = (Ok false, w') /\ objects w' = objects w)
  /\ (forall value timeout w w',
        Cache._key_exists self key w = (Ok false, w') ->
        Cache.add self key value timeout w = Cache.set self key value timeout w')
  /\ (forall v1 v2 t1 t2 w w1,
        stable_prefix self ->
        Cache.add self key v1 t1 w = (Ok true, w1) ->
        reliable w1 ->
        (forall body, pickle_dumps v1 = Ok body -> pickle_loads body = Ok v1) ->
        exists w2,
          Cache.add self key v2 t2 w1 = (Ok false, w2)
          /\ objects w2 = objects w1
          /\ (Cache.get self key w2).1 = Ok v1).
Proof.
  split; [|split].
  - intros value timeout w w' Hp. unfold Cache.add, bind. rewrite Hp.
    split; [reflexivity|].
    rewrite key_exists_run in Hp. injection Hp as _ <-. apply probed_objects.
  - intros value timeout w w' Hp. unfold Cache.add, bind. rewrite Hp. reflexivity.
  - intros v1 v2 t1 t2 w w1 Hs Hadd Hr Hrt.
    destruct (add_true_inv self key v1 t1 w w1 Hadd) as [_ Hset].
    destruct (set_true_stored self key v1 t1 _ w1 Hs Hset) as (body & Hd & Hb).
    exists (probed self key w1).
    split; [|split].
    + apply add_probed, (probe_answer_stored self key w1 body Hr Hb).
    + apply probed_objects.
    + rewrite (get_stored self key (probed self key w1) body Hs).
      * apply Hrt, Hd.
      * apply probed_reliable, Hr.
      * rewrite <- Hb. apply stored_stable; [exact Hs|apply probed_objects].
Qed.

Lemma add_keeps_existing_witness :
  let w1 := (@Cache.add StubPickle scenario_cache "abc" (PyStr "v1") None empty_world).2 in
  exists w2,
    @Cache.add StubPickle scenario_cache "abc" (PyStr "v2") None w1 = (Ok false, w2)
    /\ objects w2 = objects w1
    /\ (@Cache.get StubPickle scenario_cache "abc" w2).1 = Ok (PyStr "v1").
Proof.
  intros w1.
  apply (proj2 (proj2 (@add_keeps_existing StubPickle scenario_cache "abc"))
           (PyStr "v1") (PyStr "v2") None None empty_world w1).
  - intros n m. reflexivity.
  - reflexivity.
  - reflexivity.
  - intros body [= <-]. reflexivity.
Defined.

(** C2 as stated fails for the sequence of two [add].  With a prefix that
    changes between evaluations both return [True] and [get] misses; with a
    fixed prefix, when the head call of the second [add] raises it writes
    [v2] over [v1]; and when the key had an object before, both return
    [False] and [get] returns the old value. *)
Lemma add_keeps_existing_counterexample :
  (let r1 := @Cache.add StubPickle rotating_cache "abc" (PyStr "v1") None empty_world in
   let r2 := @Cache.add StubPickle rotating_cache "abc" (PyStr "v2") None r1.2 in
   r1.1 = Ok true /\ r2.1 = Ok true
   /\ (@Cache.get StubPickle rotating_cache "abc" r2.2).1 = Ok PyNone)
  /\ (let r1 := @Cache.add StubPickle scenario_cache "abc" (PyStr "v1") None
                  (mkWorld ∅ [None; None; Some AccessDenied] [] 0 []) in
      let r2 := @Cache.add StubPickle scenario_cache "abc" (PyStr "v2") None r1.2 in
      r1.1 = Ok true /\ r2.1 = Ok true
      /\ (@Cache.get StubPickle scenario_cache "abc" r2.2).1 = Ok (PyStr "v2"))
  /\ (let r1 := @Cache.add StubPickle scenario_cache "abc" (PyStr "v1") None
                  (mkWorld {[ ("bucket", "cache/abc") := [x56; x6f] ]} [] [] 0 []) in
      let r2 := @Cache.add StubPickle scenario_cache "abc" (PyStr "v2") None r1.2 in
      r1.1 = Ok false /\ r2.1 = Ok false
      /\ (@Cache.get StubPickle scenario_cache "abc" r2.2).1 = Ok (PyStr "o")).
Proof. repeat split; reflexivity. Qed.



(** ** The requests an operation sends *)

Section Requests.

Context `{Pickle}.
Variable self : S3Cache.
Variable key : string.

Lemma prefix_between_widen (a a' b b' : World) (p : string) :
  prefix_calls a' <= prefix_calls a -> prefix_calls b <= prefix_calls b' ->
  prefix_between self a b p -> prefix_between self a' b' p.
Proof.
  unfold prefix_between. intros Ha Hb.
  destruct (_key_prefix self) as [s|f]; [trivial|].
  intros (n & Hn & ->). exists n. split; [lia|reflexivity].
Qed.

Lemma addressed_widen (a a' b b' : World) (r : Request) :
  prefix_calls a' <= prefix_calls a -> prefix_calls b <= prefix_calls b' ->
  addressed self key a b r -> addressed self key a' b' r.
Proof.
  intros Ha Hb (Hbk & p & Hp & Hk). split; [exact Hbk|].
  exists p. split; [|exact Hk]. exact (prefix_between_widen a a' b b' p Ha Hb Hp).
Qed.

Lemma sends_nothing (w w' : World) :
  requests w' = requests w -> prefix_calls w' = prefix_calls w -> sends self key w w' [].
Proof.
  intros Hr Hc. unfold sends. rewrite Hr, Hc, app_nil_r. auto.
Qed.

Lemma sends_trans (w w1 w2 : World) (l1 l2 : list Request) :
  sends self key w w1 l1 -> sends self key w1 w2 l2 -> sends self key w w2 (l1 ++ l2)%list.
Proof.
  intros (Hr1 & Hc1 & Hf1) (Hr2 & Hc2 & Hf2). unfold sends.
  split; [|split].
  - rewrite Hr2, Hr1, app_assoc. reflexivity.
  - lia.
  - apply Forall_app. split.
    + eapply Forall_impl; [exact Hf1|]. intros r. apply addressed_widen; lia.
    + eapply Forall_impl; [exact Hf2|]. intros r. apply addressed_widen; lia.
Qed.

(** One client call on the storage key computed at [w]. *)
Lemma sends_one (w w' : World) (r : Request) :
  requests w' = (requests w ++ [r])%list ->
  prefix_calls w' = prefix_calls (after_prefix self w) ->
  request_bucket r = bucket self ->
  request_keys r = [full_key self key w] ->
  sends self key w w' [r].
Proof.
  intros Hr Hc Hb Hk. unfold sends.
  split; [exact Hr|]. split; [rewrite Hc; apply after_prefix_calls|].
  constructor; [|constructor].
  split; [exact Hb|]. exists (prefix_at self (prefix_calls w)).
  split; [|exact Hk].
  unfold prefix_between, prefix_at. rewrite Hc. unfold after_prefix.
  destruct (_key_prefix self) as [s|f]; [reflexivity|].
  exists (prefix_calls w). simpl. split; [lia|reflexivity].
Qed.

Lemma probe_sends (w : World) :
  sends self key w (probed self key w) [probe_request self key w].
Proof.
  apply sends_one; try reflexivity.
  unfold probed. cbn [requests served]. rewrite after_prefix_requests. reflexivity.
Qed.

End Requests.

Section OperationRequests.

Context `{Pickle}.
Variable self : S3Cache.
Variable key : string.

(** The handlers only log. *)
Lemma log_and_return_sends {A} (msg : string) (e : Exn) (a : A) (w : World) :
  sends self key w
    ((let* _ := logging_warn msg in let* _ := logging_exception e in ret a) w).2 [].
Proof. apply sends_nothing; reflexivity. Qed.

(** A client call on the storage key of [key], whatever its outcome. *)
Lemma call_sends {A} (r : Request) (effect : M A) (w : World) :
  (forall w0, requests (effect w0).2 = requests w0
              /\ prefix_calls (effect w0).2 = prefix_calls w0) ->
  request_bucket r = bucket self ->
  request_keys r = [full_key self key w] ->
  sends self key w (S3Client.call r effect (after_prefix self w)).2 [r].
Proof.
  intros Heff Hb Hk. unfold S3Client.call.
  destruct (next_fault (after_prefix self w)); cbn [snd].
  - apply sends_one; try assumption; try reflexivity.
    cbn [requests served]. rewrite after_prefix_requests. reflexivity.
  - destruct (Heff (served r (after_prefix self w))) as [Hr Hc].
    apply sends_one; [|exact Hc|exact Hb|exact Hk].
    rewrite Hr. cbn [requests served]. rewrite after_prefix_requests. reflexivity.
Qed.

Lemma get_sends (w : World) :
  exists sent, sends self key w (Cache.get self key w).2 sent.
Proof.
  unfold Cache.get, bind at 1. rewrite key_exists_run.
  destruct (probe_answer self key w); cbn [negb].
  - unfold try_except_else, bind at 1. rewrite full_s3_key_run.
    pose proof (call_sends
                  (DownloadFileobj (bucket self) (full_key self key (probed self key w))
                     (get_extra_args self))
                  (fun w0 =>
                     match objects w0 !! (bucket self, full_key self key (probed self key w)) with
                     | Some body => (Ok body, w0)
                     | None => (Raise (ClientError NoSuchKey), w0)
                     end)
                  (probed self key w)) as Hcall.
    unfold S3Client.download_fileobj.
    destruct (S3Client.call _ _ (after_prefix self (probed self key w))) as [[body|e] w1].
    + eexists. eapply sends_trans; [apply probe_sends|].
      eapply sends_trans; [apply Hcall|]; try reflexivity.
      * intros w0. destruct (objects w0 !! _); split; reflexivity.
      * apply sends_nothing with (w' := (lift (pickle_loads body) w1).2); reflexivity.
    + eexists. eapply sends_trans; [apply probe_sends|].
      eapply sends_trans; [apply Hcall|]; try reflexivity.
      * intros w0. destruct (objects w0 !! _); split; reflexivity.
      * apply log_and_return_sends.
  - eexists. apply probe_sends.
Qed.

Lemma delete_sends (w : World) :
  exists sent, sends self key w (Cache.delete self key w).2 sent.
Proof.
  unfold Cache.delete, bind at 1. rewrite key_exists_run.
  destruct (probe_answer self key w); cbn [negb].
  - unfold try_except_else, bind at 1. rewrite full_s3_key_run.
    pose proof (call_sends
                  (DeleteObjects (bucket self) [full_key self key (probed self key w)])
                  (fun w0 =>
                     (Ok tt,
                      with_objects
                        (foldr (fun k o => delete (bucket self, k) o) (objects w0)
                           [full_key self key (probed self key w)]) w0))
                  (probed self key w)) as Hcall.
    unfold S3Client.delete_objects.
    destruct (S3Client.call _ _ (after_prefix self (probed self key w))) as [[[]|e] w1].
    + eexists. eapply sends_trans; [apply probe_sends|].
      eapply sends_trans; [apply Hcall|]; try reflexivity.
      * intros w0. split; reflexivity.
      * apply sends_nothing; reflexivity.
    + eexists. eapply sends_trans; [apply probe_sends|].
      eapply sends_trans; [apply Hcall|]; try reflexivity.
      * intros w0. split; reflexivity.
      * apply log_and_return_sends.
  - eexists. apply probe_sends.
Qed.

Lemma set_sends (value : PyValue) (timeout : option Z) (w : World) :
  exists sent, sends self key w (Cache.set self key value timeout w).2 sent.
Proof.
  unfold Cache.set, bind at 1, lift.
  destruct (pickle_dumps value) as [body|e].
  - unfold try_except_else, bind at 1. rewrite full_s3_key_run.
    pose proof (call_sends
                  (UploadFileobj body (bucket self) (full_key self key w)
                     (put_extra_args self))
                  (fun w0 =>
                     (Ok tt,
                      with_objects
                        (<[(bucket self, full_key self key w) := body]> (objects w0)) w0))
                  w) as Hcall.
    unfold S3Client.upload_fileobj.
    destruct (S3Client.call _ _ (after_prefix self w)) as [[[]|e] w1].
    + eexists. eapply sends_trans; [apply Hcall|]; try reflexivity.
      * intros w0. split; reflexivity.
      * apply sends_nothing; reflexivity.
    + eexists. eapply sends_trans; [apply Hcall|]; try reflexivity.
      * intros w0. split; reflexivity.
      * apply log_and_return_sends.
  - eexists. apply sends_nothing; reflexivity.
Qed.

Lemma add_sends (value : PyValue) (timeout : option Z) (w : World) :
  exists sent, sends self key w (Cache.add self key value timeout w).2 sent.
Proof.
  unfold Cache.add, bind at 1. rewrite key_exists_run.
  destruct (probe_answer self key w).
  - eexists. apply probe_sends.
  - destruct (set_sends value timeout (probed self key w)) as [sent Hs].
    eexists. eapply sends_trans; [apply probe_sends|exact Hs].
Qed.

Lemma bool_result_world (m : M bool) (w : World) :
  ((let* r := m in ret (PyBool r)) w).2 = (m w).2.
Proof. unfold bind, ret. destruct (m w) as [[b|e] w']; reflexivity. Qed.

End OperationRequests.

(** C3: every request that [get], [set], [add] or [delete] of key [k] sends to
    the client names the bucket of the cache and the key [p +:+ k], where [p]
    is the configured prefix when it is a string and the answer of an
    invocation of the callable made during the operation otherwise; the key
    is appended as it is. *)
Theorem storage_key_is_prefix_plus_key `{Pickle} (self : S3Cache) (op : KeyedOp)
    (key : string) (w : World) :
  exists sent,
    requests (perform self op key w).2 = (requests w ++ sent)%list
    /\ Forall
         (fun r =>
            request_bucket r = bucket self
            /\ exists p,
                 prefix_between self w (perform self op key w).2 p
                 /\ request_keys r = [p +:+ key])
         sent.
Proof.
  assert (Hs : exists sent, sends self key w (perform self op key w).2 sent).
  { destruct op as [|value timeout|value timeout|]; unfold perform;
      rewrite ?bool_result_world.
    - apply get_sends.
    - apply set_sends.
    - apply add_sends.
    - apply delete_sends. }
  destruct Hs as (sent & Hr & _ & Hf). exists sent. split; [exact Hr|exact Hf].
Qed.

Section Decoding.

Context `{Pickle}.
Variable self : S3Cache.

(** A download that raises is a miss: the handler logs and returns [None]. *)
Lemma get_download_error_is_miss (key : string) (w : World) (e : S3Error) :
  probe_answer self key w = true ->
  next_fault (probed self key w) = Some e ->
  (Cache.get self key w).1 = Ok PyNone.
Proof.
  intros Hp Hf. rewrite (get_probed self key w Hp).
  unfold try_except_else, S3Client.download_fileobj, S3Client.call.
  rewrite (after_prefix_next_fault self), Hf. reflexivity.
Qed.

End Decoding.

(** C7, as the code has it: [pickle.load] runs in the [else] suite of the
    [try], so when the probe and the download succeed and the payload does not
    decode, [get] raises the error of the serializer instead of returning
    [None]. *)
Theorem get_decode_error_propagates `{Pickle} (self : S3Cache) (key : string)
    (w : World) (body : bytes) (e : Exn) :
  stable_prefix self ->
  reliable w ->
  stored self key w = Some body ->
  pickle_loads body = Raise e ->
  (Cache.get self key w).1 = Raise e.
Proof.
  intros Hs Hr Hb Hl. rewrite (get_stored self key w body Hs Hr Hb). exact Hl.
Qed.

Lemma get_decode_error_propagates_witness :
  (@Cache.get StubPickle scenario_cache "abc"
     (mkWorld {[ ("bucket", "cache/abc") := [x00] ]} [] [] 0 [])).1
  = Raise UnpicklingError.
Proof.
  apply (@get_decode_error_propagates StubPickle scenario_cache "abc"
           (mkWorld {[ ("bucket", "cache/abc") := [x00] ]} [] [] 0 []) [x00]).
  - intros n m. reflexivity.
  - reflexivity.
  - reflexivity.
  - reflexivity.
Defined.

(** ** The scenario of the specification *)

(** With prefix ["cache/"], [set("abc", v)] writes the object ["cache/abc"]
    and nothing else. *)
Example scenario_set_request :
  requests (@Cache.set StubPickle scenario_cache "abc" (PyStr "v") None empty_world).2
  = [UploadFileobj [x56; x76] "bucket" "cache/abc" []].
Proof. reflexivity. Qed.

(** With a prefix that changes between evaluations, [get] after [set] probes
    another object and misses. *)
Example rotating_prefix_misses :
  let w1 := (@Cache.set StubPickle rotating_cache "abc" (PyStr "v") None empty_world).2 in
  requests (@Cache.get StubPickle rotating_cache "abc" w1).2
  = [UploadFileobj [x56; x76] "bucket" "a/abc" []; HeadObject "bucket" "b/abc" []]
  /\ (@Cache.get StubPickle rotating_cache "abc" w1).1 = Ok PyNone.
Proof. split; reflexivity. Qed.

(** The stand-in serializer reads back what it wrote. *)
Lemma stub_round_trip (v : PyValue) (body : bytes) :
  stub_dumps v = Ok body -> stub_loads body = Ok v.
Proof.
  destruct v as [|[|]|z|s|l|l|]; simpl; intros [= <-]; try reflexivity.
  simpl. rewrite String.string_of_list_byte_of_string. reflexivity.
Qed.

(** ** Keys that were never written *)

Section Unwritten.

Context `{Pickle}.
Variable self : S3Cache.

Lemma get_objects (key : string) (w : World) :
  objects (Cache.get self key w).2 = objects w.
Proof.
  unfold Cache.get, bind at 1. rewrite key_exists_run.
  destruct (probe_answer self key w); cbn [negb]; [|apply probed_objects].
  unfold try_except_else, bind at 1. rewrite full_s3_key_run.
  unfold S3Client.download_fileobj, S3Client.call.
  destruct (next_fault _); [cbn; rewrite after_prefix_objects; apply probed_objects|].
  destruct (objects _ !! _); cbn; rewrite after_prefix_objects; apply probed_objects.
Qed.

(** [delete] only removes. *)
Lemma delete_keeps_absent (key : string) (w : World) (i : string * string) :
  objects w !! i = None -> objects (Cache.delete self key w).2 !! i = None.
Proof.
  intros Hi. unfold Cache.delete, bind at 1. rewrite key_exists_run.
  destruct (probe_answer self key w); cbn [negb];
    [|unfold ret; cbn [snd]; rewrite probed_objects; exact Hi].
  unfold try_except_else, bind at 1. rewrite full_s3_key_run.
  unfold S3Client.delete_objects, S3Client.call.
  destruct (next_fault _); cbn; rewrite after_prefix_objects, probed_objects.
  - exact Hi.
  - apply lookup_delete_None. right. exact Hi.
Qed.

(** [set] changes at most the object of its own storage key. *)
Lemma set_objects_other (key : string) (value : PyValue) (timeout : option Z)
    (w : World) (i : string * string) :
  i <> (bucket self, full_key self key w) ->
  objects (Cache.set self key value timeout w).2 !! i = objects w !! i.
Proof.
  intros Hi. unfold Cache.set, bind at 1, lift.
  destruct (pickle_dumps value) as [body|e]; [|reflexivity].
  unfold try_except_else, bind at 1. rewrite full_s3_key_run.
  unfold S3Client.upload_fileobj, S3Client.call.
  destruct (next_fault _); cbn; rewrite after_prefix_objects; [reflexivity|].
  apply lookup_insert_ne. congruence.
Qed.

Lemma add_objects_other (key : string) (value : PyValue) (timeout : option Z)
    (w : World) (i : string * string) :
  i <> (bucket self, full_key self key (probed self key w)) ->
  objects (Cache.add self key value timeout w).2 !! i = objects w !! i.
Proof.
  intros Hi. unfold Cache.add, bind at 1. rewrite key_exists_run.
  destruct (probe_answer self key w).
  - unfold ret. cbn [snd]. rewrite probed_objects. reflexivity.
  - rewrite (set_objects_other key value timeout _ i Hi), probed_objects. reflexivity.
Qed.

(** An operation that is not a write of [key] leaves [key] without object. *)
Lemma not_stored_preserved (key : string) (op : KeyedOp) (k : string) (w : World) :
  stable_prefix self ->
  (writes op = true -> k <> key) ->
  stored self key w = None ->
  stored self key (perform self op k w).2 = None.
Proof.
  intros Hs Hw Hn. unfold stored in *.
  rewrite (full_key_stable self key _ w Hs).
  assert (Hne : forall w0, k <> key ->
            (bucket self, full_key self key w) <> (bucket self, full_key self k w0)).
  { intros w0 Hk [= Heq]. apply Hk. symmetry.
    rewrite (full_key_stable self k w0 w Hs) in Heq.
    exact (append_inj_r _ _ _ Heq). }
  destruct op as [|value timeout|value timeout|]; unfold perform;
    rewrite ?bool_result_world.
  - rewrite get_objects. exact Hn.
  - rewrite set_objects_other; [exact Hn|]. apply Hne, Hw. reflexivity.
  - rewrite add_objects_other; [exact Hn|]. apply Hne, Hw. reflexivity.
  - apply delete_keeps_absent, Hn.
Qed.

(** From an empty bucket, through any operations that never write [key], the
    key has no object. *)
Lemma unwritten_key_not_stored (key : string) (ops : list (KeyedOp * string))
    (w : World) :
  stable_prefix self ->
  Forall (fun o => writes o.1 = true -> o.2 <> key) ops ->
  stored self key w = None ->
  stored self key (run_ops self ops w) = None.
Proof.
  intros Hs Hops. revert w.
  induction Hops as [|[op k] ops Hop _ IH]; intros w Hn; [exact Hn|].
  simpl. apply IH. apply not_stored_preserved; assumption.
Qed.

End Unwritten.

(** C6, amended: with a key prefix that answers the same at every evaluation,
    a key that has no object to begin with and that no operation since has
    written misses: [get] returns [None] and [delete] returns [False]; and
    after a [set(k, v)] that returned [True], with a client that raises no
    error afterwards, [delete(k)] returns [True] and the following [get(k)]
    returns [None]. *)
Theorem unwritten_and_deleted_keys_miss `{Pickle} (self : S3Cache) (key : string) :
  stable_prefix self ->
  (forall ops w,
     stored self key w = None ->
     Forall (fun o => writes o.1 = true -> o.2 <> key) ops ->
     (Cache.get self key (run_ops self ops w)).1 = Ok PyNone
     /\ (Cache.delete self key (run_ops self ops w)).1 = Ok false)
  /\ (forall value timeout w w1,
        Cache.set self key value timeout w = (Ok true, w1) ->
        reliable w1 ->
        exists w2,
          Cache.delete self key w1 = (Ok true, w2)
          /\ (Cache.get self key w2).1 = Ok PyNone).
Proof.
  intros Hs. split.
  - intros ops w Hn Hops.
    pose proof (unwritten_key_not_stored self key ops w Hs Hops Hn) as Hb.
    rewrite (get_not_stored self key _ Hb), (delete_not_stored self key _ Hb).
    split; reflexivity.
  - intros value timeout w w1 Hset Hr.
    destruct (set_true_stored self key value timeout w w1 Hs Hset) as (body & _ & Hb).
    destruct (delete_deleted self key w1) as (w2 & Hdel & Ho & _).
    + apply (probe_answer_stored self key w1 body Hr Hb).
    + apply reliable_next_fault, probed_reliable, Hr.
    + exists w2. split; [exact Hdel|].
      rewrite get_not_stored; [reflexivity|].
      unfold stored. rewrite Ho, (full_key_stable self key w2 (probed self key w1) Hs).
      apply lookup_delete_eq.
Qed.

Lemma unwritten_and_deleted_keys_miss_witness :
  (let w := @run_ops StubPickle scenario_cache
              [(OpSet (PyStr "v") None, "xyz"); (OpGet, "abc"); (OpDelete, "abc")]
              empty_world in
   (@Cache.get StubPickle scenario_cache "abc" w).1 = Ok PyNone
   /\ (Cache.delete scenario_cache "abc" w).1 = Ok false)
  /\ exists w2,
       Cache.delete scenario_cache "abc"
         (@Cache.set StubPickle scenario_cache "abc" (PyStr "v") None empty_world).2
       = (Ok true, w2)
       /\ (@Cache.get StubPickle scenario_cache "abc" w2).1 = Ok PyNone.
Proof.
  assert (Hs : stable_prefix scenario_cache) by (intros n m; reflexivity).
  split.
  - apply (proj1 (@unwritten_and_deleted_keys_miss StubPickle scenario_cache "abc" Hs)).
    + reflexivity.
    + repeat constructor; simpl; intros; discriminate.
  - apply (proj2 (@unwritten_and_deleted_keys_miss StubPickle scenario_cache "abc" Hs)
             (PyStr "v") None empty_world).
    + reflexivity.
    + reflexivity.
Defined.

(** C6 as stated fails.  With a prefix that changes between evaluations, a key
    that was never written reads an object written for another key, and is
    deleted with success; after a [set] that returned [True], [delete] removes
    another object, returns [True], and [get] still returns the value.  With a
    fixed prefix, when the head call of the [delete] raises, [delete] returns
    [False] after a [set] that returned [True]. *)
Lemma unwritten_and_deleted_keys_miss_counterexample :
  (let w := @run_ops StubPickle growing_cache [(OpSet (PyStr "v") None, "bc")]
              empty_world in
   (@Cache.get StubPickle growing_cache "c" w).1 = Ok (PyStr "v")
   /\ (Cache.delete growing_cache "c" w).1 = Ok true)
  /\ (let r := @Cache.set StubPickle drifting_cache "abc" (PyStr "v") None empty_world in
      let d := Cache.delete drifting_cache "abc" r.2 in
      r.1 = Ok true /\ d.1 = Ok true
      /\ (@Cache.get StubPickle drifting_cache "abc" d.2).1 = Ok (PyStr "v"))
  /\ (let r := @Cache.set StubPickle scenario_cache "abc" (PyStr "v") None
                 (mkWorld ∅ [None; Some AccessDenied] [] 0 []) in
      r.1 = Ok true /\ (Cache.delete scenario_cache "abc" r.2).1 = Ok false).
Proof. repeat split; reflexivity. Qed.

(** * Further properties of the operations *)

(** ** The operations in closed form *)

Section ClosedForms.

Context `{Pickle}.
Variable self : S3Cache.

Lemma set_run (key : string) (value : PyValue) (timeout : option Z) (w : World) :
  Cache.set self key value timeout w
  = match pickle_dumps value with
    | Raise e => (Raise e, w)
    | Ok body =>
        let w1 := served (upload_request self key body w) (after_prefix self w) in
        match next_fault w with
        | Some e =>
            (Ok false,
             failure_logged ("Error while trying to set key " +:+ key) (ClientError e) w1)
        | None =>
            (Ok true,
             with_objects (<[(bucket self, full_key self key w) := body]> (objects w)) w1)
        end
    end.
Proof.
  unfold Cache.set, bind at 1, lift.
  destruct (pickle_dumps value) as [body|e]; [|reflexivity].
  unfold try_except_else, bind at 1. rewrite full_s3_key_run.
  unfold S3Client.upload_fileobj, S3Client.call.
  rewrite after_prefix_next_fault.
  destruct (next_fault w); [reflexivity|].
  unfold ret. cbn [objects served]. rewrite after_prefix_objects. reflexivity.
Qed.

Lemma delete_run (key : string) (w : World) :
  Cache.delete self key w
  = let w0 := probed self key w in
    let w1 := served (delete_request self key w0) (after_prefix self w0) in
    if probe_answer self key w then
      match next_fault w0 with
      | Some e =>
          (Ok false,
           failure_logged ("Error while trying to delete key " +:+ key)
             (ClientError e) w1)
      | None =>
          (Ok true,
           with_objects (delete (bucket self, full_key self key w0) (objects w)) w1)
      end
    else (Ok false, w0).
Proof.
  unfold Cache.delete, bind at 1. rewrite key_exists_run.
  destruct (probe_answer self key w); cbn [negb]; [|reflexivity].
  unfold try_except_else, bind at 1. rewrite full_s3_key_run.
  unfold S3Client.delete_objects, S3Client.call.
  rewrite after_prefix_next_fault.
  destruct (next_fault (probed self key w)); [reflexivity|].
  unfold ret. cbn [objects served foldr].
  rewrite after_prefix_objects, probed_objects. reflexivity.
Qed.

Lemma get_run (key : string) (w : World) :
  Cache.get self key w
  = let w0 := probed self key w in
    let w1 := served (download_request self key w0) (after_prefix self w0) in
    let msg := "Error while trying to get key " +:+ key in
    if probe_answer self key w then
      match next_fault w0 with
      | Some e => (Ok PyNone, failure_logged msg (ClientError e) w1)
      | None =>
          match objects w !! (bucket self, full_key self key w0) with
          | Some body => (pickle_loads body, w1)
          | None => (Ok PyNone, failure_logged msg (ClientError NoSuchKey) w1)
          end
      end
    else (Ok PyNone, w0).
Proof.
  unfold Cache.get, bind at 1. rewrite key_exists_run.
  destruct (probe_answer self key w); cbn [negb]; [|reflexivity].
  unfold try_except_else, bind at 1. rewrite full_s3_key_run.
  unfold S3Client.download_fileobj, S3Client.call.
  rewrite after_prefix_next_fault.
  destruct (next_fault (probed self key w)); [reflexivity|].
  cbn [objects served]. rewrite after_prefix_objects, probed_objects.
  destruct (objects w !! _); reflexivity.
Qed.

Lemma add_run (key : string) (value : PyValue) (timeout : option Z) (w : World) :
  Cache.add self key value timeout w
  = if probe_answer self key w then (Ok false, probed self key w)
    else Cache.set self key value timeout (probed self key w).
Proof.
  unfold Cache.add, bind at 1. rewrite key_exists_run.
  destruct (probe_answer self key w); reflexivity.
Qed.

Lemma after_prefix_logged (w : World) : logged (after_prefix self w) = logged w.
Proof. unfold after_prefix. destruct (_key_prefix self); reflexivity. Qed.

Lemma probed_requests (key : string) (w : World) :
  requests (probed self key w) = (requests w ++ [probe_request self key w])%list.
Proof. unfold probed. cbn [requests served]. rewrite after_prefix_requests. reflexivity. Qed.

Lemma probed_logged (key : string) (w : World) :
  logged (probed self key w) = logged w.
Proof. unfold probed. cbn [logged served]. apply after_prefix_logged. Qed.

Lemma probed_faults (key : string) (w : World) :
  faults (probed self key w) = tail (faults w).
Proof. unfold probed. cbn [faults served]. rewrite after_prefix_faults. reflexivity. Qed.

End ClosedForms.

(** ** Which requests an operation sends *)

(** X1: [get] sends the head request and, only when the probe found the key, one
    download with [get_extra_args]; the storage key of the download is
    computed anew after the probe. *)
Theorem get_request_sequence `{Pickle} (self : S3Cache) (key : string) (w : World) :
  requests (Cache.get self key w).2
  = (requests w
     ++ probe_request self key w
        :: (if probe_answer self key w
            then [download_request self key (probed self key w)]
            else []))%list.
Proof.
  rewrite get_run. cbv zeta.
  destruct (probe_answer self key w); [|apply probed_requests].
  destruct (next_fault (probed self key w)) as [e|];
    [|destruct (objects w !! _)];
    cbn [snd requests failure_logged record_log served];
    rewrite after_prefix_requests, probed_requests, <- app_assoc; reflexivity.
Qed.

(** X2: [delete] sends the head request and, only when the probe found the key,
    one [delete_objects] naming that single key; no extra arguments go with
    it. *)
Theorem delete_request_sequence (self : S3Cache) (key : string) (w : World) :
  requests (Cache.delete self key w).2
  = (requests w
     ++ probe_request self key w
        :: (if probe_answer self key w
            then [DeleteObjects (bucket self) [full_key self key (probed self key w)]]
            else []))%list.
Proof.
  rewrite delete_run. cbv zeta.
  destruct (probe_answer self key w); [|apply probed_requests].
  destruct (next_fault (probed self key w)) as [e|];
    cbn [snd requests failure_logged record_log served with_objects];
    rewrite after_prefix_requests, probed_requests, <- app_assoc; reflexivity.
Qed.

(** X3: [set] never probes: it sends one upload of the encoded value with
    [put_extra_args], and nothing at all when the value does not encode. *)
Theorem set_request_sequence `{Pickle} (self : S3Cache) (key : string)
    (value : PyValue) (timeout : option Z) (w : World) :
  requests (Cache.set self key value timeout w).2
  = (requests w
     ++ match pickle_dumps value with
        | Ok body =>
            [UploadFileobj body (bucket self) (full_key self key w) (put_extra_args self)]
        | Raise _ => []
        end)%list.
Proof.
  rewrite set_run. cbv zeta.
  destruct (pickle_dumps value) as [body|e]; [|symmetry; apply app_nil_r].
  destruct (next_fault w);
    cbn [snd requests failure_logged record_log served with_objects];
    rewrite after_prefix_requests; reflexivity.
Qed.

(** X4: [add] sends the head request; the upload follows only when the probe did
    not find the key and the value encodes. *)
Theorem add_request_sequence `{Pickle} (self : S3Cache) (key : string)
    (value : PyValue) (timeout : option Z) (w : World) :
  requests (Cache.add self key value timeout w).2
  = (requests w
     ++ probe_request self key w
        :: (if probe_answer self key w then []
            else match pickle_dumps value with
                 | Ok body =>
                     [UploadFileobj body (bucket self)
                        (full_key self key (probed self key w)) (put_extra_args self)]
                 | Raise _ => []
                 end))%list.
Proof.
  rewrite add_run.
  destruct (probe_answer self key w); [apply probed_requests|].
  rewrite set_run. cbv zeta.
  destruct (pickle_dumps value) as [body|e]; [|apply probed_requests].
  destruct (next_fault (probed self key w));
    cbn [snd requests failure_logged record_log served with_objects];
    rewrite after_prefix_requests, probed_requests, <- app_assoc; reflexivity.
Qed.

(** ** What an operation returns *)

(** X5: [delete] never raises: it returns [True] when the probe found the key and
    the deletion call did not raise, and [False] in every other case. *)
Theorem delete_never_raises (self : S3Cache) (key : string) (w : World) :
  (Cache.delete self key w).1
  = Ok (probe_answer self key w
        && match next_fault (probed self key w) with
           | None => true
           | Some _ => false
           end).
Proof.
  rewrite delete_run. cbv zeta.
  destruct (probe_answer self key w); [|reflexivity].
  destruct (next_fault (probed self key w)); reflexivity.
Qed.

(** X6: [set] raises what the serializer raises and nothing else; when the value
    encodes it returns whether the upload went through, whether or not the key
    had an object before. *)
Theorem set_result `{Pickle} (self : S3Cache) (key : string) (value : PyValue)
    (timeout : option Z) (w : World) :
  (Cache.set self key value timeout w).1
  = match pickle_dumps value with
    | Raise e => Raise e
    | Ok _ => Ok match next_fault w with None => true | Some _ => false end
    end.
Proof.
  rewrite set_run. cbv zeta.
  destruct (pickle_dumps value); [|reflexivity].
  destruct (next_fault w); reflexivity.
Qed.

(** X7: The only exception [get] lets through is the one of the decoder, on an
    object that the probe found and the download delivered. *)
Theorem get_raises_only_decode_errors `{Pickle} (self : S3Cache) (key : string)
    (w : World) (e : Exn) :
  (Cache.get self key w).1 = Raise e ->
  probe_answer self key w = true
  /\ exists body,
       objects w !! (bucket self, full_key self key (probed self key w)) = Some body
       /\ pickle_loads body = Raise e.
Proof.
  rewrite get_run. cbv zeta.
  destruct (probe_answer self key w); [|discriminate].
  destruct (next_fault (probed self key w)); [discriminate|].
  destruct (objects w !! _) as [body|]; [|discriminate].
  intros Hl. split; [reflexivity|]. exists body. split; [reflexivity|exact Hl].
Qed.

Lemma get_raises_only_decode_errors_witness :
  let w := mkWorld {[ ("bucket", "cache/abc") := [x00] ]} [] [] 0 [] in
  probe_answer scenario_cache "abc" w = true
  /\ exists body,
       objects w !! (bucket scenario_cache,
                     full_key scenario_cache "abc" (probed scenario_cache "abc" w))
       = Some body
       /\ stub_loads body = Raise UnpicklingError.
Proof.
  intros w.
  apply (@get_raises_only_decode_errors StubPickle scenario_cache "abc" w
           UnpicklingError).
  reflexivity.
Defined.

(** ** What an operation leaves in the store *)

Section StoreEffects.

Context `{Pickle}.
Variable self : S3Cache.

Lemma delete_objects_other (key : string) (w : World) (i : string * string) :
  i <> (bucket self, full_key self key (probed self key w)) ->
  objects (Cache.delete self key w).2 !! i = objects w !! i.
Proof.
  intros Hi. rewrite delete_run. cbv zeta.
  destruct (probe_answer self key w);
    [destruct (next_fault (probed self key w))|];
    cbn [snd objects failure_logged record_log served with_objects];
    rewrite ?after_prefix_objects, ?probed_objects; try reflexivity.
  apply lookup_delete_ne. congruence.
Qed.

(** The objects an operation can change are in the bucket of the cache. *)
Lemma perform_objects_other_bucket (op : KeyedOp) (key : string) (w : World)
    (i : string * string) :
  i.1 <> bucket self ->
  objects (perform self op key w).2 !! i = objects w !! i.
Proof.
  intros Hi.
  assert (Hne : forall full, i <> (bucket self, full)).
  { intros full ->. apply Hi. reflexivity. }
  destruct op as [|value timeout|value timeout|]; unfold perform;
    rewrite ?bool_result_world.
  - rewrite get_objects. reflexivity.
  - apply set_objects_other, Hne.
  - apply add_objects_other, Hne.
  - apply delete_objects_other, Hne.
Qed.

End StoreEffects.

(** X8: [get] and the existence probe never change an object, whatever the client
    answers. *)
Theorem get_is_read_only `{Pickle} (self : S3Cache) (key : string) (w : World) :
  objects (Cache.get self key w).2 = objects w
  /\ objects (Cache._key_exists self key w).2 = objects w.
Proof.
  split; [apply get_objects|].
  rewrite key_exists_run. apply probed_objects.
Qed.

(** X9: No operation touches an object of another bucket. *)
Theorem other_buckets_untouched `{Pickle} (self : S3Cache) (op : KeyedOp)
    (key : string) (w : World) (Bucket Key : string) :
  Bucket <> bucket self ->
  objects (perform self op key w).2 !! (Bucket, Key) = objects w !! (Bucket, Key).
Proof. intros Hb. apply perform_objects_other_bucket. exact Hb. Qed.

Lemma other_buckets_untouched_witness :
  let w := mkWorld {[ ("other", "cache/abc") := [x4e; x2e];
                      ("bucket", "cache/abc") := [x4e; x2e] ]} [] [] 0 [] in
  objects (@perform StubPickle scenario_cache OpDelete "abc" w).2 !! ("other", "cache/abc")
  = objects w !! ("other", "cache/abc").
Proof.
  intros w.
  apply (@other_buckets_untouched StubPickle scenario_cache OpDelete "abc" w
           "other" "cache/abc").
  discriminate.
Defined.

(** X10: With a stable prefix, an operation on one key leaves the object of every
    other key as it is. *)
Theorem other_keys_untouched `{Pickle} (self : S3Cache) (op : KeyedOp)
    (key other : string) (w : World) :
  stable_prefix self ->
  other <> key ->
  stored self other (perform self op key w).2 = stored self other w.
Proof.
  intros Hs Hne. unfold stored.
  rewrite (full_key_stable self other _ w Hs).
  assert (Hk : forall w0,
            (bucket self, full_key self other w) <> (bucket self, full_key self key w0)).
  { intros w0 [= Heq]. apply Hne.
    rewrite (full_key_stable self key w0 w Hs) in Heq.
    exact (append_inj_r _ _ _ Heq). }
  destruct op as [|value timeout|value timeout|]; unfold perform;
    rewrite ?bool_result_world.
  - rewrite get_objects. reflexivity.
  - apply set_objects_other, Hk.
  - apply add_objects_other, Hk.
  - apply delete_objects_other, Hk.
Qed.

Lemma other_keys_untouched_witness :
  stored scenario_cache "xyz"
    (@perform StubPickle scenario_cache OpDelete "abc"
       (mkWorld {[ ("bucket", "cache/xyz") := [x4e; x2e];
                   ("bucket", "cache/abc") := [x4e; x2e] ]} [] [] 0 [])).2
  = stored scenario_cache "xyz"
      (mkWorld {[ ("bucket", "cache/xyz") := [x4e; x2e];
                  ("bucket", "cache/abc") := [x4e; x2e] ]} [] [] 0 []).
Proof.
  apply (@other_keys_untouched StubPickle scenario_cache OpDelete "abc" "xyz").
  - intros n m. reflexivity.
  - discriminate.
Defined.

(** ** How the operations compose *)

(** X11: An object that is there is deleted once: with a stable prefix and a
    reliable client the first [delete] returns [True] and removes it, the
    second returns [False]. *)
Theorem delete_twice (self : S3Cache) (key : string) (w : World) (body : bytes) :
  stable_prefix self ->
  reliable w ->
  stored self key w = Some body ->
  exists w1,
    Cache.delete self key w = (Ok true, w1)
    /\ stored self key w1 = None
    /\ (Cache.delete self key w1).1 = Ok false.
Proof.
  intros Hs Hr Hb.
  destruct (delete_deleted self key w) as (w1 & Hdel & Ho & _).
  - apply (probe_answer_stored self key w body Hr Hb).
  - apply reliable_next_fault, probed_reliable, Hr.
  - assert (Hnone : stored self key w1 = None).
    { unfold stored. rewrite Ho, (full_key_stable self key w1 (probed self key w) Hs).
      apply lookup_delete_eq. }
    exists w1. split; [exact Hdel|]. split; [exact Hnone|].
    rewrite (delete_not_stored self key w1 Hnone). reflexivity.
Qed.

Lemma delete_twice_witness :
  let w := mkWorld {[ ("bucket", "cache/abc") := [x4e; x2e] ]} [] [] 0 [] in
  exists w1,
    Cache.delete scenario_cache "abc" w = (Ok true, w1)
    /\ stored scenario_cache "abc" w1 = None
    /\ (Cache.delete scenario_cache "abc" w1).1 = Ok false.
Proof.
  intros w. apply (delete_twice scenario_cache "abc" w [x4e; x2e]).
  - intros n m. reflexivity.
  - reflexivity.
  - reflexivity.
Defined.

(** X12: [add] on a key without object writes it: with a stable prefix, a reliable
    client and a value that survives the serializer, [add] returns [True] and
    the following [get] returns the value. *)
Theorem add_absent_stores `{Pickle} (self : S3Cache) (key : string)
    (value : PyValue) (timeout : option Z) (w : World) (body : bytes) :
  stable_prefix self ->
  reliable w ->
  stored self key w = None ->
  pickle_dumps value = Ok body ->
  pickle_loads body = Ok value ->
  exists w1,
    Cache.add self key value timeout w = (Ok true, w1)
    /\ stored self key w1 = Some body
    /\ (Cache.get self key w1).1 = Ok value.
Proof.
  intros Hs Hr Hn Hd Hl.
  assert (Hp : probe_answer self key w = false).
  { rewrite (probe_answer_reliable self key w Hr), Hn. reflexivity. }
  pose proof (set_uploaded self key value timeout (probed self key w) body Hd
                (reliable_next_fault _ (probed_reliable self key w Hr))) as Hset.
  rewrite <- (add_unprobed self key value timeout w Hp) in Hset.
  eexists. split; [exact Hset|].
  rewrite (add_unprobed self key value timeout w Hp) in Hset.
  destruct (set_true_stored self key value timeout _ _ Hs Hset) as (body' & Hd' & Hb).
  assert (body' = body) by congruence. subst body'.
  split; [exact Hb|].
  rewrite (get_stored self key _ body Hs); [exact Hl| |exact Hb].
  unfold reliable. cbn [faults with_objects served].
  rewrite after_prefix_faults, (probed_reliable self key w Hr). reflexivity.
Qed.

Lemma add_absent_stores_witness :
  exists w1,
    @Cache.add StubPickle scenario_cache "abc" (PyStr "v") None empty_world = (Ok true, w1)
    /\ stored scenario_cache "abc" w1 = Some [x56; x76]
    /\ (@Cache.get StubPickle scenario_cache "abc" w1).1 = Ok (PyStr "v").
Proof.
  apply (@add_absent_stores StubPickle scenario_cache "abc" (PyStr "v") None
           empty_world [x56; x76]).
  - intros n m. reflexivity.
  - reflexivity.
  - reflexivity.
  - reflexivity.
  - reflexivity.
Defined.

(** X13: With a stable prefix, when the head call of the probe raises
    although the object exists, [add] takes the key for absent: if the upload
    then goes through, [add] returns [True] and the object is replaced. *)
Theorem add_overwrites_when_probe_faults `{Pickle} (self : S3Cache) (key : string)
    (value : PyValue) (timeout : option Z) (w : World) (old body : bytes)
    (e : S3Error) :
  stable_prefix self ->
  stored self key w = Some old ->
  next_fault w = Some e ->
  next_fault (probed self key w) = None ->
  pickle_dumps value = Ok body ->
  exists w1,
    Cache.add self key value timeout w = (Ok true, w1)
    /\ stored self key w1 = Some body.
Proof.
  intros Hs Hold Hf Hf1 Hd.
  assert (Hp : probe_answer self key w = false).
  { unfold probe_answer. rewrite Hf. reflexivity. }
  pose proof (set_uploaded self key value timeout (probed self key w) body Hd Hf1)
    as Hset.
  rewrite <- (add_unprobed self key value timeout w Hp) in Hset.
  eexists. split; [exact Hset|].
  rewrite (add_unprobed self key value timeout w Hp) in Hset.
  destruct (set_true_stored self key value timeout _ _ Hs Hset) as (body' & Hd' & Hb).
  congruence.
Qed.

Lemma add_overwrites_when_probe_faults_witness :
  let w := mkWorld {[ ("bucket", "cache/abc") := [x56; x6f] ]}
             [Some EndpointConnectionError] [] 0 [] in
  exists w1,
    @Cache.add StubPickle scenario_cache "abc" (PyStr "v") None w = (Ok true, w1)
    /\ stored scenario_cache "abc" w1 = Some [x56; x76].
Proof.
  intros w.
  apply (@add_overwrites_when_probe_faults StubPickle scenario_cache "abc"
           (PyStr "v") None w [x56; x6f] [x56; x76] EndpointConnectionError).
  - intros n m. reflexivity.
  - reflexivity.
  - reflexivity.
  - reflexivity.
  - reflexivity.
Defined.



(** ** The prefix, the log and the configuration *)

Section PrefixCalls.

Context `{Pickle}.
Variable self : S3Cache.

Lemma after_prefix_calls_eq (w : World) :
  prefix_calls (after_prefix self w)
  = prefix_calls w + match _key_prefix self with Literal _ => 0 | Callable _ => 1 end.
Proof. unfold after_prefix. destruct (_key_prefix self); simpl; lia. Qed.

Lemma probed_calls (key : string) (w : World) :
  prefix_calls (probed self key w) = prefix_calls (after_prefix self w).
Proof. reflexivity. Qed.

End PrefixCalls.

Ltac world_projections self :=
  cbn [snd requests prefix_calls logged failure_logged record_log served with_objects];
  rewrite ?(after_prefix_requests self), ?(probed_requests self),
    ?(after_prefix_calls_eq self), ?(probed_calls self), ?(after_prefix_calls_eq self),
    ?(after_prefix_logged self), ?(probed_logged self), ?length_app;
  cbn [length].

(** X16: A callable prefix is invoked once for every request an operation sends, so
    each request carries a prefix of its own; a literal prefix costs no call. *)
Theorem prefix_evaluated_once_per_request `{Pickle} (self : S3Cache) (op : KeyedOp)
    (key : string) (w : World) :
  prefix_calls (perform self op key w).2
  = prefix_calls w
    + match _key_prefix self with
      | Literal _ => 0
      | Callable _ => length (requests (perform self op key w).2) - length (requests w)
      end.
Proof.
  destruct op as [|value timeout|value timeout|]; unfold perform;
    rewrite ?bool_result_world.
  - rewrite get_run. cbv zeta.
    destruct (probe_answer self key w);
      [destruct (next_fault (probed self key w)); [|destruct (objects w !! _)]|];
      world_projections self; destruct (_key_prefix self); lia.
  - rewrite set_run. cbv zeta.
    destruct (pickle_dumps value); [destruct (next_fault w)|];
      world_projections self; destruct (_key_prefix self); lia.
  - rewrite add_run.
    destruct (probe_answer self key w);
      [|rewrite set_run; cbv zeta;
        destruct (pickle_dumps value); [destruct (next_fault (probed self key w))|]];
      world_projections self; destruct (_key_prefix self); lia.
  - rewrite delete_run. cbv zeta.
    destruct (probe_answer self key w);
      [destruct (next_fault (probed self key w))|];
      world_projections self; destruct (_key_prefix self); lia.
Qed.

(** X17: With a callable prefix, the head request and the download of one [get]
    use two successive answers of the callable. *)
Theorem get_rereads_prefix `{Pickle} (self : S3Cache) (f : nat -> string)
    (key : string) (w : World) :
  _key_prefix self = Callable f ->
  probe_answer self key w = true ->
  requests (Cache.get self key w).2
  = (requests w
     ++ [HeadObject (bucket self) (f (prefix_calls w) +:+ key) (head_extra_args self);
         DownloadFileobj (bucket self) (f (S (prefix_calls w)) +:+ key)
           (get_extra_args self)])%list.
Proof.
  intros Hf Hp. rewrite get_run. cbv zeta. rewrite Hp.
  assert (Hhead : probe_request self key w
                  = HeadObject (bucket self) (f (prefix_calls w) +:+ key)
                      (head_extra_args self)).
  { unfold probe_request, full_key, prefix_at. rewrite Hf. reflexivity. }
  assert (Hdown : download_request self key (probed self key w)
                  = DownloadFileobj (bucket self) (f (S (prefix_calls w)) +:+ key)
                      (get_extra_args self)).
  { unfold download_request, full_key, prefix_at, probed, after_prefix.
    rewrite Hf. reflexivity. }
  destruct (next_fault (probed self key w)); [|destruct (objects w !! _)];
    cbn [snd requests failure_logged record_log served];
    rewrite after_prefix_requests, probed_requests, Hhead, Hdown, <- app_assoc;
    reflexivity.
Qed.

(** The object is found under the first answer of the callable, the download
    asks for it under the second, and [get] misses. *)
Lemma get_rereads_prefix_witness :
  let w := mkWorld {[ ("bucket", "a/abc") := [x4e; x2e] ]} [] [] 0 [] in
  requests (@Cache.get StubPickle rotating_cache "abc" w).2
  = [HeadObject "bucket" "a/abc" []; DownloadFileobj "bucket" "b/abc" []].
Proof.
  intros w.
  apply (@get_rereads_prefix StubPickle rotating_cache
           (fun n => if Nat.even n then "a/" else "b/") "abc" w).
  - reflexivity.
  - reflexivity.
Defined.

(** X18: What the operations log: [set] and [delete] log exactly when the
    guarded upload or deletion raised, the warning naming the key followed by
    the exception; [get] logs that pair when its download raised, and nothing
    when the probe fails or misses. *)
Theorem logging_of_failures `{Pickle} (self : S3Cache) (key : string)
    (value : PyValue) (timeout : option Z) (w : World) :
  logged (Cache.set self key value timeout w).2
  = (logged w
     ++ match pickle_dumps value, next_fault w with
        | Ok _, Some e =>
            [LogWarn ("Error while trying to set key " +:+ key);
             LogException (ClientError e)]
        | _, _ => []
        end)%list
  /\ logged (Cache.delete self key w).2
     = (logged w
        ++ match probe_answer self key w, next_fault (probed self key w) with
           | true, Some e =>
               [LogWarn ("Error while trying to delete key " +:+ key);
                LogException (ClientError e)]
           | _, _ => []
           end)%list
  /\ (probe_answer self key w = false -> logged (Cache.get self key w).2 = logged w)
  /\ (forall e,
        probe_answer self key w = true ->
        next_fault (probed self key w) = Some e ->
        logged (Cache.get self key w).2
        = (logged w
           ++ [LogWarn ("Error while trying to get key " +:+ key);
               LogException (ClientError e)])%list).
Proof.
  split; [|split; [|split]].
  - rewrite set_run. cbv zeta.
    destruct (pickle_dumps value); [destruct (next_fault w)|];
      world_projections self; rewrite <- ?app_assoc, ?app_nil_r; reflexivity.
  - rewrite delete_run. cbv zeta.
    destruct (probe_answer self key w);
      [destruct (next_fault (probed self key w))|];
      world_projections self; rewrite <- ?app_assoc, ?app_nil_r; reflexivity.
  - intros Hp. rewrite get_run. cbv zeta. rewrite Hp. cbn [snd]. apply probed_logged.
  - intros e Hp Hf. rewrite get_run. cbv zeta. rewrite Hp, Hf.
    world_projections self. rewrite <- app_assoc. reflexivity.
Qed.

Lemma logging_of_failures_witness :
  let w := mkWorld {[ ("bucket", "cache/abc") := [x4e; x2e] ]}
             [None; Some AccessDenied] [] 0 [] in
  logged (@Cache.get StubPickle scenario_cache "abc" w).2
  = [LogWarn "Error while trying to get key abc"; LogException (ClientError AccessDenied)]
  /\ logged (@Cache.get StubPickle scenario_cache "xyz" w).2 = [].
Proof.
  intros w. split.
  - apply (proj2 (proj2 (proj2
             (@logging_of_failures StubPickle scenario_cache "abc" PyNone None w)))
             AccessDenied); reflexivity.
  - apply (proj1 (proj2 (proj2
             (@logging_of_failures StubPickle scenario_cache "xyz" PyNone None w))));
      reflexivity.
Defined.

(** X19: [default_timeout] is stored and never read: two caches that differ only in
    it behave alike in every operation. *)
Theorem default_timeout_is_ignored `{Pickle} (c1 c2 : S3Cache) (op : KeyedOp)
    (key : string) (w : World) :
  bucket c1 = bucket c2 ->
  _key_prefix c1 = _key_prefix c2 ->
  get_extra_args c1 = get_extra_args c2 ->
  put_extra_args c1 = put_extra_args c2 ->
  head_extra_args c1 = head_extra_args c2 ->
  perform c1 op key w = perform c2 op key w.
Proof.
  destruct c1 as [b1 p1 t1 g1 u1 h1], c2 as [b2 p2 t2 g2 u2 h2]. simpl.
  intros -> -> -> -> ->. destruct op; reflexivity.
Qed.

Lemma default_timeout_is_ignored_witness :
  @perform StubPickle scenario_cache (OpSet (PyStr "v") None) "abc" empty_world
  = @perform StubPickle (mkS3Cache "bucket" (Literal "cache/") 0 [] [] [])
      (OpSet (PyStr "v") None) "abc" empty_world.
Proof.
  apply (@default_timeout_is_ignored StubPickle scenario_cache
           (mkS3Cache "bucket" (Literal "cache/") 0 [] [] [])); reflexivity.
Defined.

Lemma append_same_length (p1 p2 a b : string) :
  String.length p1 = String.length p2 -> p1 +:+ a = p2 +:+ b -> p1 = p2.
Proof.
  revert p2. induction p1 as [|c p1 IH]; intros [|d p2]; simpl;
    intros Hlen Heq; try discriminate; [reflexivity|].
  injection Hlen as Hlen. injection Heq as -> Heq.
  f_equal. exact (IH p2 Hlen Heq).
Qed.

(** X15: Two caches with different literal prefixes of the same
    length do not meet: no operation of the one changes what the other has
    stored for any key. *)
Theorem equal_length_prefixes_isolate `{Pickle} (c1 c2 : S3Cache) (p1 p2 : string)
    (op : KeyedOp) (k1 k2 : string) (w : World) :
  _key_prefix c1 = Literal p1 ->
  _key_prefix c2 = Literal p2 ->
  String.length p1 = String.length p2 ->
  p1 <> p2 ->
  stored c2 k2 (perform c1 op k1 w).2 = stored c2 k2 w.
Proof.
  intros Hp1 Hp2 Hlen Hne.
  assert (Hfk : forall w0, full_key c2 k2 w0 = p2 +:+ k2).
  { intros w0. unfold full_key, prefix_at. rewrite Hp2. reflexivity. }
  assert (Hk : forall w0,
            (bucket c2, p2 +:+ k2) <> (bucket c1, full_key c1 k1 w0)).
  { intros w0 [= _ Heq]. apply Hne. unfold full_key, prefix_at in Heq.
    rewrite Hp1 in Heq. symmetry. exact (append_same_length _ _ _ _ (eq_sym Hlen) Heq). }
  unfold stored. rewrite !Hfk.
  destruct op as [|value timeout|value timeout|]; unfold perform;
    rewrite ?bool_result_world.
  - rewrite get_objects. reflexivity.
  - apply set_objects_other, Hk.
  - apply add_objects_other, Hk.
  - apply delete_objects_other, Hk.
Qed.

Lemma equal_length_prefixes_isolate_witness :
  let w := mkWorld {[ ("bucket", "x/abc") := [x4e; x2e] ]} [] [] 0 [] in
  stored (mkS3Cache "bucket" (Literal "x/") 300 [] [] []) "abc"
    (@perform StubPickle (mkS3Cache "bucket" (Literal "y/") 300 [] [] [])
       (OpSet (PyStr "v") None) "abc" w).2
  = stored (mkS3Cache "bucket" (Literal "x/") 300 [] [] []) "abc" w.
Proof.
  intros w.
  apply (@equal_length_prefixes_isolate StubPickle
           (mkS3Cache "bucket" (Literal "y/") 300 [] [] [])
           (mkS3Cache "bucket" (Literal "x/") 300 [] [] []) "y/" "x/").
  - reflexivity.
  - reflexivity.
  - reflexivity.
  - discriminate.
Defined.
